(** * WAGTAIL-OJT: block schemas, page schemas and the stream renderer

    The repository is declarative: [customblocks/blocks.py] declares five
    [StructBlock] classes, [home/models.py] and [blog/models.py] declare the
    [StreamField] vocabularies of two page types, and
    [customblocks/templatetags/customblocks_tags.py] holds the one loop of
    the project, [render_streamfield], and the [richtext] filter.

    The declarations are embedded as data: [Block] trees that carry the
    keyword arguments and [Meta] attributes of the source.  The loop is
    embedded as a function in a small state-and-exception monad, with the
    framework's [Block.render] as a parameter.  Validation of block values
    is the framework's; it is modelled here from the specification and
    applied to the declarations of the source. *)

From Stdlib Require Import String Ascii List Bool Arith Lia Permutation.
Import ListNotations.
Open Scope string_scope.
Open Scope list_scope.
Set Warnings "-register-all".

(* ===================================================================== *)
(** * Block declarations ([wagtail.blocks] as used by the source)        *)
(* ===================================================================== *)

Module Blocks.

(** Keyword arguments and [class Meta] attributes that occur in the
    source.  A declaration carries them as a list, in source order. *)
Inductive Kwarg : Set :=
| required (b : bool)
| default (s : string)
| help_text (s : string)
| classname (s : string)
| min_num (n : nat)
| max_num (n : nat)
| icon (s : string)
| label (s : string)
| template (s : string).

(** The block classes the source instantiates or subclasses. *)
Inductive Block : Set :=
| CharBlock (kwargs : list Kwarg)
| TextBlock (kwargs : list Kwarg)
| RichTextBlock (kwargs : list Kwarg)
| URLBlock (kwargs : list Kwarg)
| ImageChooserBlock (kwargs : list Kwarg)
| ListBlock (child_block : Block) (kwargs : list Kwarg)
| StructBlock (child_blocks : list (string * Block)) (Meta : list Kwarg).

(** ** customblocks/blocks.py *)

Definition FAQItemBlock : Block :=
  StructBlock
    [ ("question", CharBlock [required true; help_text "FAQ question"]);
      ("answer", RichTextBlock [required true; help_text "FAQ answer"]) ]
    [ icon "help"; label "FAQ Item" ].

Definition FAQBlock : Block :=
  StructBlock
    [ ("title", CharBlock [required false; default "Frequently Asked Questions"]);
      ("items", ListBlock FAQItemBlock [help_text "Add FAQ question/answer pairs"]) ]
    [ icon "help"; label "FAQ Section";
      template "customblocks/blocks/faq_block.html" ].

Definition TestimonialBlock : Block :=
  StructBlock
    [ ("quote", TextBlock [required true; help_text "Testimonial text"]);
      ("name", CharBlock [required true; help_text "Person's name"]);
      ("role", CharBlock [required false; help_text "Role / Company"]);
      ("avatar", ImageChooserBlock [required false]) ]
    [ icon "user"; label "Testimonial" ].

Definition TestimonialSliderBlock : Block :=
  StructBlock
    [ ("title", CharBlock [required false; default "What our customers say"]);
      ("testimonials", ListBlock TestimonialBlock [min_num 1]) ]
    [ icon "group"; label "Testimonial Slider";
      template "customblocks/blocks/testimonial_slider.html" ].

Definition CallToActionBlock : Block :=
  StructBlock
    [ ("eyebrow", CharBlock [required false; help_text "Small text above headline"]);
      ("headline", CharBlock [required true]);
      ("body", RichTextBlock [required false]);
      ("button_text", CharBlock [required true; default "Get started"]);
      ("button_url", URLBlock [required true]);
      ("secondary_link_text", CharBlock [required false]);
      ("secondary_link_url", URLBlock [required false]) ]
    [ icon "placeholder"; label "Call to Action";
      template "customblocks/blocks/call_to_action.html" ].

(** ** Reading a declaration *)

Definition kwargs_of (b : Block) : list Kwarg :=
  match b with
  | CharBlock kw | TextBlock kw | RichTextBlock kw | URLBlock kw
  | ImageChooserBlock kw => kw
  | ListBlock _ kw => kw
  | StructBlock _ meta => meta
  end.

(** [meta.template]: the template a declaration names, if it names one. *)
Fixpoint kw_template (kw : list Kwarg) : option string :=
  match kw with
  | [] => None
  | template t :: _ => Some t
  | _ :: rest => kw_template rest
  end.

Definition get_template (b : Block) : option string := kw_template (kwargs_of b).

Definition has_template (b : Block) : bool :=
  match get_template b with Some _ => true | None => false end.

(** A block together with every block nested in it (list children and
    struct children), outermost first. *)
Fixpoint descendants (b : Block) : list Block :=
  b ::
  match b with
  | ListBlock child _ => descendants child
  | StructBlock children _ =>
      (fix over (cs : list (string * Block)) : list Block :=
         match cs with
         | [] => []
         | (_, c) :: rest => descendants c ++ over rest
         end) children
  | _ => []
  end.

End Blocks.

(* ===================================================================== *)
(** * Page declarations                                                   *)
(* ===================================================================== *)

Module Pages.
Import Blocks.

Record StreamField : Set := {
  block_types : list (string * Block);
  use_json_field : bool;
  blank : bool
}.

(** home/models.py, [HomePage.body] *)
Definition HomePage_body : StreamField := {|
  block_types :=
    [ ("heading", CharBlock [classname "full title"]);
      ("paragraph", RichTextBlock []);
      ("faq", FAQBlock);
      ("testimonials", TestimonialSliderBlock);
      ("cta", CallToActionBlock) ];
  use_json_field := true;
  blank := true
|}.

(** blog/models.py, [BlogPage.body] *)
Definition BlogPage_body : StreamField := {|
  block_types :=
    [ ("paragraph", RichTextBlock []);
      ("image", ImageChooserBlock []);
      ("heading", CharBlock [classname "full title"]) ];
  use_json_field := true;
  blank := true
|}.

(** Every block variant the two pages can hold, nested ones included. *)
Definition declared_blocks : list Block :=
  flat_map (fun entry => descendants (snd entry))
           (block_types HomePage_body ++ block_types BlogPage_body).

End Pages.

(* ===================================================================== *)
(** * Block values and the framework's validation of them                 *)
(* ===================================================================== *)

Module Validation.
Import Blocks.

(** The value a block holds.  Text-like field blocks hold a string
    ([None] is Python's [None], a sub-field that was not supplied), an
    image chooser holds the primary key of the chosen image, a list block
    holds the list of its children's values, and a struct block holds one
    value per declared child, in declaration order. *)
Fixpoint ValueOf (b : Block) : Set :=
  match b with
  | CharBlock _ | TextBlock _ | RichTextBlock _ | URLBlock _ => option string
  | ImageChooserBlock _ => option nat
  | ListBlock child _ => list (ValueOf child)
  | StructBlock children _ =>
      (fix fields (cs : list (string * Block)) : Set :=
         match cs with
         | [] => unit
         | (_, c) :: rest => (ValueOf c * fields rest)%type
         end) children
  end.

Definition StructValue (children : list (string * Block)) : Set :=
  ValueOf (StructBlock children []).

(** Values of the five declared struct blocks, written with their
    sub-fields in declaration order. *)
Definition FAQItem_value (question answer : option string)
  : ValueOf FAQItemBlock :=
  (question, (answer, tt)).

Definition FAQ_value (title : option string) (items : list (ValueOf FAQItemBlock))
  : ValueOf FAQBlock :=
  (title, (items, tt)).

Definition Testimonial_value (quote name role : option string) (avatar : option nat)
  : ValueOf TestimonialBlock :=
  (quote, (name, (role, (avatar, tt)))).

Definition TestimonialSlider_value
    (title : option string) (testimonials : list (ValueOf TestimonialBlock))
  : ValueOf TestimonialSliderBlock :=
  (title, (testimonials, tt)).

Definition CallToAction_value
    (eyebrow headline body button_text button_url
     secondary_link_text secondary_link_url : option string)
  : ValueOf CallToActionBlock :=
  (eyebrow, (headline, (body, (button_text, (button_url,
    (secondary_link_text, (secondary_link_url, tt))))))).

(** ** Keyword arguments that steer validation *)

(** Modelled from the spec: how the framework (not under src/) reads the
    [required] keyword of a field block; a sub-field is required unless
    the declaration says [required=False]. *)
Fixpoint kw_required (kw : list Kwarg) : bool :=
  match kw with
  | [] => true
  | required b :: _ => b
  | _ :: rest => kw_required rest
  end.

Fixpoint kw_min_num (kw : list Kwarg) : option nat :=
  match kw with
  | [] => None
  | min_num n :: _ => Some n
  | _ :: rest => kw_min_num rest
  end.

Fixpoint kw_max_num (kw : list Kwarg) : option nat :=
  match kw with
  | [] => None
  | max_num n :: _ => Some n
  | _ :: rest => kw_max_num rest
  end.

(** ** Text normalisation of a form field *)

(** Python's [str.isspace] on code points below 256.  Strings are byte
    strings here: a character beyond that range is a sequence of bytes
    and is not recognised as a space, so the model of text fields is
    exact on printable ASCII text and says nothing reliable beyond it. *)
Definition isspace (c : ascii) : bool :=
  let n := nat_of_ascii c in
  (((9 <=? n) && (n <=? 13)) || ((28 <=? n) && (n <=? 32))
   || (n =? 133) || (n =? 160))%nat.

(** Python's [str.lstrip], [str.rstrip] and [str.strip] without argument. *)
Fixpoint lstrip (s : string) : string :=
  match s with
  | EmptyString => EmptyString
  | String c rest => if isspace c then lstrip rest else s
  end.

Fixpoint rstrip (s : string) : string :=
  match s with
  | EmptyString => EmptyString
  | String c rest =>
      match rstrip rest with
      | EmptyString => if isspace c then EmptyString else String c EmptyString
      | kept => String c kept
      end
  end.

Definition strip (s : string) : string := rstrip (lstrip s).

(** Modelled from the spec: the text the framework's form field (not
    under src/) tests for emptiness.  [None] reads as the empty string;
    surrounding whitespace is removed first, so that a value of spaces
    only is never taken for a supplied one.  The spec itself asks only
    that a required sub-field be non-empty; the trimming is the form
    field's own. *)
Definition to_python (v : option string) : string :=
  match v with
  | None => ""
  | Some s => strip s
  end.

(** A sub-field is blank when nothing but whitespace was supplied. *)
Definition is_blank (v : option string) : bool := (to_python v =? "")%string.

(** A sub-field is empty when it is missing or holds the empty string. *)
Definition is_empty (v : option string) : bool :=
  match v with
  | None => true
  | Some s => (s =? "")%string
  end.

(** ** Validation errors *)

(** Modelled from the spec: the errors of the framework's validation
    path (not under src/): a missing required sub-field, an ill-formed
    value, a list with too few or too many children, and the errors of
    struct and list blocks, which carry those of their children. *)
Inductive ErrorCode : Set :=
| code_required
| code_invalid
| code_invalid_choice
| code_min_num (limit : nat)
| code_max_num (limit : nat).

Inductive ValidationError : Set :=
| FieldError (code : ErrorCode)
| ListBlockValidationError
    (block_errors : list (nat * ValidationError))
    (non_block_errors : list ErrorCode)
| StructBlockValidationError
    (block_errors : list (string * ValidationError)).

(** Modelled from the spec: the two facts validation takes from outside
    the declarations, whether a text is a well-formed URL and whether an
    image with a given key exists.  Both belong to the framework and its
    database, which are not under src/. *)
Record Framework : Type := {
  url_is_valid : string -> bool;
  image_exists : nat -> bool
}.

(** Modelled from the spec: the framework's verdict (not under src/) on
    a sub-field that was left empty. *)
Definition check_required (kw : list Kwarg) : option ValidationError :=
  if kw_required kw then Some (FieldError code_required) else None.

(** Modelled from the spec: validation of a text-like field block
    ([CharBlock], [TextBlock], [RichTextBlock]); the framework's field
    classes are not under src/.  A required sub-field must be non-empty
    at save time; the source declares no length limit. *)
Definition clean_text (kw : list Kwarg) (v : option string)
  : option ValidationError :=
  if is_blank v then check_required kw else None.

(** Modelled from the spec: validation of a [URLBlock]; the framework's
    URL field is not under src/.  A blank value is subject to [required]
    only, any other value must be a valid URL.  The spec asks for a valid
    URL in the required button_url; the source declares the optional
    secondary_link_url with the same block class. *)
Definition clean_url (fw : Framework) (kw : list Kwarg) (v : option string)
  : option ValidationError :=
  if is_blank v then check_required kw
  else if url_is_valid fw (to_python v) then None
  else Some (FieldError code_invalid).

(** Modelled from the spec: validation of an [ImageChooserBlock]; the
    framework's chooser is not under src/. *)
Definition clean_chooser (fw : Framework) (kw : list Kwarg) (v : option nat)
  : option ValidationError :=
  match v with
  | None => check_required kw
  | Some pk => if image_exists fw pk then None
               else Some (FieldError code_invalid_choice)
  end.

(** Modelled from the spec: the errors the framework (not under src/)
    collects from a list block's children, each with its index. *)
Fixpoint child_errors {A : Set} (clean_child : A -> option ValidationError)
    (index : nat) (values : list A) : list (nat * ValidationError) :=
  match values with
  | [] => []
  | v :: rest =>
      match clean_child v with
      | Some e => (index, e) :: child_errors clean_child (S index) rest
      | None => child_errors clean_child (S index) rest
      end
  end.

(** Modelled from the spec: the errors the framework (not under src/)
    reports for a list block as a whole, too few children for [min_num]
    or too many for [max_num]; a bound that is not declared is not
    checked. *)
Definition count_errors (kw : list Kwarg) (n : nat) : list ErrorCode :=
  (match kw_min_num kw with
   | Some m => if (n <? m)%nat then [code_min_num m] else []
   | None => []
   end) ++
  (match kw_max_num kw with
   | Some m => if (m <? n)%nat then [code_max_num m] else []
   | None => []
   end).

(** Modelled from the spec: the framework's save-time validation
    ([Block.clean]), which is not under src/.  [clean fw b v] is the
    validation error raised for value [v] of block [b], or [None] when
    the value is accepted.  A struct block validates every declared
    child and fails when any child fails; a list block validates every
    element and its own [min_num]/[max_num] bounds. *)
Fixpoint clean (fw : Framework) (b : Block) : ValueOf b -> option ValidationError :=
  match b return ValueOf b -> option ValidationError with
  | CharBlock kw => clean_text kw
  | TextBlock kw => clean_text kw
  | RichTextBlock kw => clean_text kw
  | URLBlock kw => clean_url fw kw
  | ImageChooserBlock kw => clean_chooser fw kw
  | ListBlock child kw => fun values =>
      let block_errors := child_errors (clean fw child) 0 values in
      let non_block_errors := count_errors kw (length values) in
      match block_errors, non_block_errors with
      | [], [] => None
      | _, _ => Some (ListBlockValidationError block_errors non_block_errors)
      end
  | StructBlock children _ => fun value =>
      let errors :=
        (fix over (cs : list (string * Block))
           : StructValue cs -> list (string * ValidationError) :=
           match cs return StructValue cs -> list (string * ValidationError) with
           | [] => fun _ => []
           | entry :: rest =>
               match entry
                 return StructValue (entry :: rest)
                        -> list (string * ValidationError)
               with
               | (name, c) => fun v =>
                   match clean fw c (fst v) with
                   | Some e => (name, e) :: over rest (snd v)
                   | None => over rest (snd v)
                   end
               end
           end) children value in
      match errors with
      | [] => None
      | _ => Some (StructBlockValidationError errors)
      end
  end.

Definition accepted (fw : Framework) (b : Block) (v : ValueOf b) : Prop :=
  clean fw b v = None.

Definition rejected (fw : Framework) (b : Block) (v : ValueOf b) : Prop :=
  clean fw b v <> None.

End Validation.

(* ===================================================================== *)
(** * customblocks/templatetags/customblocks_tags.py                     *)
(* ===================================================================== *)

Module Tags.
Import Blocks Validation.

(** A Python call either returns or raises. *)
Inductive Outcome (Exn A : Type) : Type :=
| Returned (a : A)
| Raised (e : Exn).

Arguments Returned {Exn A} a.
Arguments Raised {Exn A} e.

(** Computations that may change the world (the rendering context is a
    mutable object, templates may touch the database) and may raise. *)
Definition M (World Exn A : Type) : Type := World -> Outcome Exn A * World.

Definition ret {World Exn A : Type} (a : A) : M World Exn A :=
  fun w => (Returned a, w).

Definition bind {World Exn A B : Type}
    (m : M World Exn A) (k : A -> M World Exn B) : M World Exn B :=
  fun w =>
    match m w with
    | (Returned a, w') => k a w'
    | (Raised e, w') => (Raised e, w')
    end.

Notation "x <- m ;; k" := (bind m (fun x => k))
  (at level 61, m at next level, right associativity).

(** One element of a stream value: its type tag, the block that owns it
    and its value ([block.block], [block.value] in the source). *)
Record StreamChild : Type := {
  block_type : string;
  block : Block;
  value : ValueOf block
}.

Definition StreamValue : Type := list StreamChild.

(** [bool(stream_value)]: [None] and the empty stream are falsy. *)
Definition truth (stream_value : option StreamValue) : bool :=
  match stream_value with
  | None => false
  | Some [] => false
  | Some (_ :: _) => true
  end.

(** The elements a [for] loop visits. *)
Definition iter (stream_value : option StreamValue) : list StreamChild :=
  match stream_value with
  | None => []
  | Some children => children
  end.

(** [sep.join(parts)] *)
Definition join (sep : string) (parts : list string) : string :=
  String.concat sep parts.

Section Renderer.

Variables World Context Exn : Type.

(** [Block.render(value, context=context)], supplied by the framework:
    the block's template when it declares one, its default rendering
    otherwise. *)
Variable render :
  forall b : Block, ValueOf b -> Context -> M World Exn string.

(** The body of the [for] loop, with the list [rendered] built so far. *)
Fixpoint for_block_in (context : Context) (stream : list StreamChild)
    (rendered : list string) : M World Exn (list string) :=
  match stream with
  | [] => ret rendered
  | child :: rest =>
      html <- render (block child) (value child) context ;;
      for_block_in context rest (rendered ++ [html])
  end.

Definition render_streamfield (context : Context)
    (stream_value : option StreamValue) : M World Exn string :=
  if negb (truth stream_value) then ret ""
  else
    rendered <- for_block_in context (iter stream_value) [] ;;
    ret (join "" rendered).

(** [rendered_in_order context w stream htmls w']: starting in world
    [w], rendering the elements of [stream] one after the other with
    their own blocks returns the texts [htmls] and leaves world [w']. *)
Inductive rendered_in_order (context : Context)
  : World -> list StreamChild -> list string -> World -> Prop :=
| rendered_nil : forall w, rendered_in_order context w [] [] w
| rendered_cons : forall w child html w1 rest htmls w2,
    render (block child) (value child) context w = (Returned html, w1) ->
    rendered_in_order context w1 rest htmls w2 ->
    rendered_in_order context w (child :: rest) (html :: htmls) w2.

(** [first_raise context w stream e w']: some element's render call
    raises [e] and leaves world [w'], every element before it having
    rendered without error. *)
Definition first_raise (context : Context) (w : World)
    (stream : list StreamChild) (e : Exn) (w' : World) : Prop :=
  exists before child after htmls w1,
    stream = before ++ child :: after /\
    rendered_in_order context w before htmls w1 /\
    render (block child) (value child) context w1 = (Raised e, w').

(** A render call that [render_streamfield] makes raises. *)
Definition some_render_raises (context : Context) (w : World)
    (stream : list StreamChild) : Prop :=
  exists e w', first_raise context w stream e w'.

End Renderer.

Section RichText.

Variables World Exn : Type.

(** [expand_db_html], imported from [wagtail.rich_text]: the framework's
    expansion of stored rich text. *)
Variable expand_db_html : string -> M World Exn string.

(** The [richtext] filter hands its argument to [expand_db_html] and
    returns what it returns. *)
Definition richtext (value : string) : M World Exn string :=
  expand_db_html value.

End RichText.

(** The stream of the specification's example. *)
Definition heading_child (text : string) : StreamChild :=
  {| block_type := "heading";
     block := CharBlock [classname "full title"];
     value := Some text |}.

Definition paragraph_child (source : string) : StreamChild :=
  {| block_type := "paragraph";
     block := RichTextBlock [];
     value := Some source |}.

Definition welcome_stream : StreamValue :=
  [ heading_child "Welcome"; paragraph_child "<p>Hi</p>" ].

End Tags.

(* ===================================================================== *)
(** * Concrete instances                                                  *)
(* ===================================================================== *)

Module Samples.
Import Blocks Validation Tags.

(** A site whose URL check asks for an http(s) scheme and whose image
    library holds the keys below ten. *)
Definition site : Framework := {|
  url_is_valid := fun s => String.prefix "http://" s || String.prefix "https://" s;
  image_exists := fun pk => (pk <? 10)%nat
|}.

Definition alice : ValueOf TestimonialBlock :=
  Testimonial_value (Some "Great product") (Some "Alice") (Some "CTO") (Some 3).

Definition what_is_it : ValueOf FAQItemBlock :=
  FAQItem_value (Some "What is it?") (Some "<p>A demo.</p>").

(** A renderer that counts its calls in the world, wraps headings and
    raises on an image chooser without an image. *)
Definition counting_render (b : Block)
  : ValueOf b -> string -> M nat string string :=
  match b return ValueOf b -> string -> M nat string string with
  | CharBlock _ => fun v _ w =>
      (Returned ("<h2>" ++ to_python v ++ "</h2>")%string, S w)
  | RichTextBlock _ => fun v _ w =>
      (Returned (match v with Some s => s | None => "" end), S w)
  | ImageChooserBlock _ => fun v _ w =>
      match v with
      | Some _ => (Returned "<img>", S w)
      | None => (Raised "AttributeError", S w)
      end
  | _ => fun _ _ w => (Returned "", S w)
  end.

Definition missing_image_child : StreamChild :=
  {| block_type := "image"; block := ImageChooserBlock []; value := None |}.

Definition broken_stream : StreamValue :=
  [ heading_child "Welcome"; missing_image_child; paragraph_child "<p>Hi</p>" ].

End Samples.

(* ===================================================================== *)
(** * customblocks/apps.py                                                *)
(* ===================================================================== *)

Module Apps.

Record AppConfig : Set := {
  default_auto_field : string;
  name : string;
  verbose_name : string
}.

Definition CustomBlocksConfig : AppConfig := {|
  default_auto_field := "django.db.models.BigAutoField";
  name := "customblocks";
  verbose_name := "Custom StreamField Blocks Library"
|}.

End Apps.

(* ===================================================================== *)
(** * Page models: fields and editing panels                              *)
(* ===================================================================== *)

Module Models.

(** Keyword arguments of the model fields the source declares; the
    positional argument of [DateField] is its verbose name. *)
Inductive FieldKwarg : Set :=
| blank (b : bool)
| max_length (n : nat)
| verbose_name (s : string).

Inductive Field : Set :=
| RichTextField (kwargs : list FieldKwarg)
| DateField (kwargs : list FieldKwarg)
| CharField (kwargs : list FieldKwarg)
| StreamField (declaration : Pages.StreamField).

(** An entry of [content_panels]: a [FieldPanel], or the bare field name
    that [BlogIndexPage] uses in its place. *)
Inductive Panel : Set :=
| FieldPanel (field_name : string)
| Shorthand (field_name : string).

Definition panel_field (p : Panel) : string :=
  match p with
  | FieldPanel field_name => field_name
  | Shorthand field_name => field_name
  end.

(** A page class: the fields of its body, in source order, and its
    [content_panels] as the source computes it from the inherited
    [Page.content_panels]. *)
Record PageModel : Set := {
  model_fields : list (string * Field);
  content_panels : list Panel -> list Panel
}.

(** blog/models.py *)
Definition BlogIndexPage : PageModel := {|
  model_fields := [ ("intro", RichTextField [blank true]) ];
  content_panels := fun Page_content_panels =>
    Page_content_panels ++ [ Shorthand "intro" ]
|}.

Definition BlogPage : PageModel := {|
  model_fields :=
    [ ("date", DateField [verbose_name "Post date"]);
      ("intro", CharField [max_length 250]);
      ("body", StreamField Pages.BlogPage_body) ];
  content_panels := fun Page_content_panels =>
    Page_content_panels ++
    [ FieldPanel "date"; FieldPanel "intro"; FieldPanel "body" ]
|}.

(** home/models.py *)
Definition HomePage : PageModel := {|
  model_fields := [ ("body", StreamField Pages.HomePage_body) ];
  content_panels := fun Page_content_panels =>
    Page_content_panels ++ [ FieldPanel "body" ]
|}.

Definition page_models : list PageModel := [ BlogIndexPage; BlogPage; HomePage ].

End Models.

(* ===================================================================== *)
(** * Streams and renderers used to state further properties              *)
(* ===================================================================== *)

Module StreamTools.
Import Blocks Validation Tags.

(** The template files the pages' blocks name, in declaration order. *)
Definition declared_templates : list string :=
  flat_map (fun b => match get_template b with Some t => [t] | None => [] end)
           Pages.declared_blocks.

(** A renderer that leaves the world alone and never raises: text-like
    blocks render to their text between brackets, every other block to
    a fixed mark. *)
Definition bracket_html (b : Block) : ValueOf b -> string -> string :=
  match b return ValueOf b -> string -> string with
  | CharBlock _ | TextBlock _ | RichTextBlock _ | URLBlock _ => fun v _ =>
      ("[" ++ match v with Some s => s | None => "" end ++ "]")%string
  | _ => fun _ _ => "[]"
  end.

Definition bracket_render (b : Block) (v : ValueOf b) (context : string)
  : M nat string string :=
  fun w => (Returned (bracket_html b v context), w).

(** A stream whose second element cannot be rendered by
    [Samples.counting_render]. *)
Definition failing_prefix : StreamValue :=
  [ heading_child "Welcome"; Samples.missing_image_child ].

End StreamTools.

Module PlainText.




End PlainText.

Module MoreSamples.
Import Blocks Validation.

Definition bob : ValueOf TestimonialBlock :=
  Testimonial_value (Some "Saved us weeks") (Some "Bob") None None.

(** Panels a page class may inherit. *)
Definition inherited_panels : list Models.Panel :=
  [ Models.FieldPanel "title" ].

End MoreSamples.

(* ===================================================================== *)
(** * Facts about the block declarations                                  *)
(* ===================================================================== *)

Module BlockFacts.
Import Blocks Pages.

Lemma custom_blocks_are_declared :
  In FAQItemBlock declared_blocks /\ In FAQBlock declared_blocks /\
  In TestimonialBlock declared_blocks /\
  In TestimonialSliderBlock declared_blocks /\
  In CallToActionBlock declared_blocks.
Proof. cbv [declared_blocks]. cbn. intuition. Qed.

(** C8.  Among all block variants the pages can hold (the five custom
    classes, the inline heading, paragraph and image blocks, and every
    sub-field block), exactly FAQBlock, TestimonialSliderBlock and
    CallToActionBlock declare a template, each its own file; every other
    variant declares none. *)
Theorem templates_declared_by_three_blocks :
  get_template FAQBlock = Some "customblocks/blocks/faq_block.html" /\
  get_template TestimonialSliderBlock
    = Some "customblocks/blocks/testimonial_slider.html" /\
  get_template CallToActionBlock
    = Some "customblocks/blocks/call_to_action.html" /\
  get_template FAQItemBlock = None /\
  get_template TestimonialBlock = None /\
  (forall tag b,
      In (tag, b) (block_types HomePage_body ++ block_types BlogPage_body) ->
      In tag ["heading"; "paragraph"; "image"] -> get_template b = None) /\
  (forall b, In b declared_blocks ->
      (get_template b <> None <->
       b = FAQBlock \/ b = TestimonialSliderBlock \/ b = CallToActionBlock)).
Proof.
  repeat apply conj; try reflexivity.
  - intros tag b Hin Htag. cbn in Hin.
    repeat (destruct Hin as [Hin | Hin];
            [ injection Hin as <- <-; try reflexivity | ]);
      try contradiction;
      cbn in Htag; intuition discriminate.
  - intros b Hin. split.
    + intros Ht. cbn in Hin.
      repeat (destruct Hin as [Hin | Hin];
              [ subst b; first [ now auto | exfalso; apply Ht; reflexivity ] | ]).
      contradiction.
    + intros [-> | [-> | ->]]; discriminate.
Qed.

End BlockFacts.

(* ===================================================================== *)
(** * Facts about validation                                              *)
(* ===================================================================== *)

Module ValidationFacts.
Import Blocks Validation Samples.

(** ** Text normalisation *)

Lemma is_empty_is_blank v : is_empty v = true -> is_blank v = true.
Proof.
  destruct v as [s |]; cbn; [| reflexivity].
  rewrite String.eqb_eq. intros ->. reflexivity.
Qed.

Lemma not_blank_not_empty v : is_blank v = false -> is_empty v = false.
Proof.
  intros Hb. destruct (is_empty v) eqn:He; [| reflexivity].
  apply is_empty_is_blank in He. congruence.
Qed.

(** ** Field blocks *)

Lemma clean_text_required kw v :
  kw_required kw = true ->
  (clean_text kw v = None <-> is_blank v = false).
Proof.
  intros Hreq. unfold clean_text, check_required. rewrite Hreq.
  destruct (is_blank v); intuition congruence.
Qed.

Lemma clean_text_optional kw v :
  kw_required kw = false -> clean_text kw v = None.
Proof.
  intros Hreq. unfold clean_text, check_required. rewrite Hreq.
  now destruct (is_blank v).
Qed.

Lemma clean_url_required fw kw v :
  kw_required kw = true ->
  (clean_url fw kw v = None
   <-> is_blank v = false /\ url_is_valid fw (to_python v) = true).
Proof.
  intros Hreq. unfold clean_url, check_required. rewrite Hreq.
  destruct (is_blank v); destruct (url_is_valid fw (to_python v));
    intuition congruence.
Qed.

Lemma clean_url_optional fw kw v :
  kw_required kw = false ->
  (clean_url fw kw v = None
   <-> is_blank v = true \/ url_is_valid fw (to_python v) = true).
Proof.
  intros Hreq. unfold clean_url, check_required. rewrite Hreq.
  destruct (is_blank v); destruct (url_is_valid fw (to_python v));
    intuition congruence.
Qed.

(** ** Struct blocks: a value is accepted when every child is *)

Lemma accepted_struct_nil fw meta :
  accepted fw (StructBlock [] meta) tt.
Proof. reflexivity. Qed.

Lemma accepted_struct_cons fw name c rest meta
    (x : ValueOf c) (xs : ValueOf (StructBlock rest meta)) :
  accepted fw (StructBlock ((name, c) :: rest) meta)
           ((x, xs) : ValueOf (StructBlock ((name, c) :: rest) meta))
  <-> accepted fw c x /\ accepted fw (StructBlock rest meta) xs.
Proof.
  unfold accepted. cbn [clean fst snd].
  destruct (clean fw c x) as [e |].
  - split; [discriminate | intros [H _]; discriminate].
  - match goal with
    | |- context [match ?errs with [] => _ | _ :: _ => _ end] => destruct errs
    end.
    + tauto.
    + split; [discriminate | intros [_ H]; discriminate].
Qed.

(** ** List blocks: every element accepted and the bounds respected *)

Lemma child_errors_nil {A : Set} (f : A -> option ValidationError) values :
  forall index,
    child_errors f index values = [] <-> Forall (fun v => f v = None) values.
Proof.
  induction values as [| v rest IH]; intros index; cbn.
  - split; auto.
  - destruct (f v) eqn:E.
    + split; [discriminate | intros H; inversion H; congruence].
    + rewrite IH. split; [auto | intros H; now inversion H].
Qed.

Lemma clean_ListBlock fw child kw (values : list (ValueOf child)) :
  clean fw (ListBlock child kw) values =
  let block_errors := child_errors (clean fw child) 0 values in
  let non_block_errors := count_errors kw (length values) in
  match block_errors, non_block_errors with
  | [], [] => None
  | _, _ => Some (ListBlockValidationError block_errors non_block_errors)
  end.
Proof. reflexivity. Qed.

Lemma accepted_list fw child kw (values : list (ValueOf child)) :
  accepted fw (ListBlock child kw) values
  <-> Forall (accepted fw child) values /\ count_errors kw (length values) = [].
Proof.
  unfold accepted. rewrite clean_ListBlock. cbv zeta.
  rewrite <- (child_errors_nil (clean fw child) values 0).
  destruct (child_errors (clean fw child) 0 values);
    destruct (count_errors kw (length values));
    intuition congruence.
Qed.

Lemma rejected_not_accepted fw b (v : ValueOf b) :
  rejected fw b v <-> ~ accepted fw b v.
Proof. reflexivity. Qed.

(** ** The five declared blocks *)

Lemma accepted_CharBlock fw kw v :
  accepted fw (CharBlock kw) v <-> clean_text kw v = None.
Proof. reflexivity. Qed.

Lemma accepted_TextBlock fw kw v :
  accepted fw (TextBlock kw) v <-> clean_text kw v = None.
Proof. reflexivity. Qed.

Lemma accepted_RichTextBlock fw kw v :
  accepted fw (RichTextBlock kw) v <-> clean_text kw v = None.
Proof. reflexivity. Qed.

Lemma accepted_URLBlock fw kw v :
  accepted fw (URLBlock kw) v <-> clean_url fw kw v = None.
Proof. reflexivity. Qed.

Lemma accepted_ImageChooserBlock fw kw v :
  accepted fw (ImageChooserBlock kw) v <-> clean_chooser fw kw v = None.
Proof. reflexivity. Qed.

(** Reduce acceptance of a struct value to acceptance of its children,
    and settle the children whose outcome the declaration fixes. *)
Ltac by_children :=
  rewrite !accepted_struct_cons;
  rewrite ?accepted_CharBlock, ?accepted_TextBlock, ?accepted_RichTextBlock,
          ?accepted_URLBlock, ?accepted_ImageChooserBlock, ?accepted_list;
  repeat match goal with
    | |- context [clean_text ?kw ?v = None] =>
        first [ rewrite (clean_text_required kw v) by reflexivity
              | rewrite (clean_text_optional kw v) by reflexivity ]
    | |- context [clean_url ?fw ?kw ?v = None] =>
        first [ rewrite (clean_url_required fw kw v) by reflexivity
              | rewrite (clean_url_optional fw kw v) by reflexivity ]
    end.

Lemma FAQItem_accepted fw question answer :
  accepted fw FAQItemBlock (FAQItem_value question answer)
  <-> is_blank question = false /\ is_blank answer = false.
Proof.
  unfold FAQItemBlock, FAQItem_value. by_children.
  pose proof (accepted_struct_nil fw [icon "help"; label "FAQ Item"]).
  tauto.
Qed.

Lemma Testimonial_accepted fw quote name role avatar :
  accepted fw TestimonialBlock (Testimonial_value quote name role avatar)
  <-> is_blank quote = false /\ is_blank name = false /\
      clean_chooser fw [required false] avatar = None.
Proof.
  unfold TestimonialBlock, Testimonial_value. by_children.
  pose proof (accepted_struct_nil fw [icon "user"; label "Testimonial"]).
  intuition.
Qed.

Lemma FAQ_accepted fw title items :
  accepted fw FAQBlock (FAQ_value title items)
  <-> Forall (accepted fw FAQItemBlock) items.
Proof.
  unfold FAQBlock, FAQ_value. by_children.
  pose proof (accepted_struct_nil fw
    [icon "help"; label "FAQ Section";
     template "customblocks/blocks/faq_block.html"]).
  cbn [count_errors kw_min_num kw_max_num app].
  intuition.
Qed.

Lemma TestimonialSlider_accepted fw title testimonials :
  accepted fw TestimonialSliderBlock (TestimonialSlider_value title testimonials)
  <-> Forall (accepted fw TestimonialBlock) testimonials /\ testimonials <> [].
Proof.
  unfold TestimonialSliderBlock, TestimonialSlider_value. by_children.
  pose proof (accepted_struct_nil fw
    [icon "group"; label "Testimonial Slider";
     template "customblocks/blocks/testimonial_slider.html"]).
  destruct testimonials as [| t rest]; cbn; intuition congruence.
Qed.


(** What validation reports for a slider without testimonials, and for
    a testimonial without a name. *)
Example TestimonialSlider_empty_error fw title :
  clean fw TestimonialSliderBlock (TestimonialSlider_value title [])
  = Some (StructBlockValidationError
            [("testimonials", ListBlockValidationError [] [code_min_num 1])]).
Proof.
  cbn. rewrite clean_text_optional by reflexivity. reflexivity.
Qed.

Example Testimonial_missing_name_error :
  clean site TestimonialBlock
    (Testimonial_value (Some "Great product") None (Some "CTO") (Some 3))
  = Some (StructBlockValidationError [("name", FieldError code_required)]).
Proof. reflexivity. Qed.

(** Every value of a declared struct block is built from its sub-fields. *)
Lemma FAQItem_value_all (v : ValueOf FAQItemBlock) :
  exists question answer, v = FAQItem_value question answer.
Proof. destruct v as [question [answer []]]. now exists question, answer. Qed.

Lemma Testimonial_value_all (v : ValueOf TestimonialBlock) :
  exists quote name role avatar, v = Testimonial_value quote name role avatar.
Proof.
  destruct v as [quote [name [role [avatar []]]]].
  now exists quote, name, role, avatar.
Qed.

Lemma TestimonialSlider_value_all (v : ValueOf TestimonialSliderBlock) :
  exists title testimonials, v = TestimonialSlider_value title testimonials.
Proof. destruct v as [title [testimonials []]]. now exists title, testimonials. Qed.

Lemma FAQ_value_all (v : ValueOf FAQBlock) :
  exists title items, v = FAQ_value title items.
Proof. destruct v as [title [items []]]. now exists title, items. Qed.

Lemma CallToAction_value_all (v : ValueOf CallToActionBlock) :
  exists eyebrow headline body button_text button_url
         secondary_link_text secondary_link_url,
    v = CallToAction_value eyebrow headline body button_text button_url
          secondary_link_text secondary_link_url.
Proof.
  destruct v as [e [h [b [t [u [st [su []]]]]]]].
  now exists e, h, b, t, u, st, su.
Qed.

(** ** The claims on validation *)

(** C3.  A testimonial slider whose testimonials are each valid fails
    validation exactly when the list of testimonials is empty: with zero
    testimonials it is rejected, with one or more it is accepted. *)
Theorem TestimonialSlider_rejected_iff_empty fw title testimonials :
  Forall (accepted fw TestimonialBlock) testimonials ->
  (rejected fw TestimonialSliderBlock
     (TestimonialSlider_value title testimonials)
   <-> testimonials = []) /\
  (accepted fw TestimonialSliderBlock
     (TestimonialSlider_value title testimonials)
   <-> testimonials <> []).
Proof.
  intros Hvalid. rewrite rejected_not_accepted, TestimonialSlider_accepted.
  destruct testimonials as [| t rest]; intuition congruence.
Qed.

Lemma TestimonialSlider_rejected_iff_empty_witness :
  Forall (accepted site TestimonialBlock) [alice] /\
  ((rejected site TestimonialSliderBlock
      (TestimonialSlider_value (Some "What our customers say") [alice])
    <-> [alice] = []) /\
   (accepted site TestimonialSliderBlock
      (TestimonialSlider_value (Some "What our customers say") [alice])
    <-> [alice] <> [])).
Proof.
  assert (H : Forall (accepted site TestimonialBlock) [alice]).
  { repeat constructor. }
  split; [exact H |].
  exact (TestimonialSlider_rejected_iff_empty site
           (Some "What our customers say") [alice] H).
Defined.




(** C6.  An accepted FAQ item has a non-empty question and answer, and an
    accepted testimonial a non-empty quote and name; a value in which one
    of these is empty (missing, or the empty string) is rejected. *)
Theorem required_subfields_nonempty fw :
  (forall question answer,
      accepted fw FAQItemBlock (FAQItem_value question answer) ->
      is_empty question = false /\ is_empty answer = false) /\
  (forall question answer,
      is_empty question = true \/ is_empty answer = true ->
      rejected fw FAQItemBlock (FAQItem_value question answer)) /\
  (forall quote name role avatar,
      accepted fw TestimonialBlock (Testimonial_value quote name role avatar) ->
      is_empty quote = false /\ is_empty name = false) /\
  (forall quote name role avatar,
      is_empty quote = true \/ is_empty name = true ->
      rejected fw TestimonialBlock (Testimonial_value quote name role avatar)).
Proof.
  repeat apply conj.
  - intros question answer Hok. apply FAQItem_accepted in Hok.
    split; now apply not_blank_not_empty.
  - intros question answer Hempty.
    rewrite rejected_not_accepted, FAQItem_accepted. intros [Hq Ha].
    destruct Hempty as [He | He]; apply is_empty_is_blank in He; congruence.
  - intros quote name role avatar Hok. apply Testimonial_accepted in Hok.
    split; now apply not_blank_not_empty.
  - intros quote name role avatar Hempty.
    rewrite rejected_not_accepted, Testimonial_accepted. intros (Hq & Hn & _).
    destruct Hempty as [He | He]; apply is_empty_is_blank in He; congruence.
Qed.

Lemma required_subfields_nonempty_witness :
  (is_empty (Some "What is it?") = false /\
   is_empty (Some "<p>A demo.</p>") = false) /\
  rejected site FAQItemBlock (FAQItem_value (Some "What is it?") (Some "")) /\
  (is_empty (Some "Great product") = false /\ is_empty (Some "Alice") = false) /\
  rejected site TestimonialBlock
    (Testimonial_value (Some "Great product") None (Some "CTO") (Some 3)).
Proof.
  pose proof (required_subfields_nonempty site) as (Hfaq & Hfaq' & Ht & Ht').
  repeat apply conj.
  - apply (Hfaq (Some "What is it?") (Some "<p>A demo.</p>")). reflexivity.
  - apply (Hfaq (Some "What is it?") (Some "<p>A demo.</p>")). reflexivity.
  - apply Hfaq'. right. reflexivity.
  - apply (Ht (Some "Great product") (Some "Alice") (Some "CTO") (Some 3)).
    reflexivity.
  - apply (Ht (Some "Great product") (Some "Alice") (Some "CTO") (Some 3)).
    reflexivity.
  - apply Ht'. right. reflexivity.
Defined.

(** C10.  FAQBlock sets no minimum on its items: an FAQ section with no
    items is accepted whatever its title, and so is one with any number
    of valid items, whereas a testimonial slider with no testimonials is
    rejected. *)
Theorem FAQ_accepts_empty_items fw title :
  accepted fw FAQBlock (FAQ_value title []) /\
  (forall items, Forall (accepted fw FAQItemBlock) items ->
                 accepted fw FAQBlock (FAQ_value title items)) /\
  rejected fw TestimonialSliderBlock (TestimonialSlider_value title []).
Proof.
  repeat apply conj.
  - apply FAQ_accepted. constructor.
  - intros items Hitems. now apply FAQ_accepted.
  - rewrite rejected_not_accepted, TestimonialSlider_accepted. intuition.
Qed.

Lemma FAQ_accepts_empty_items_witness :
  accepted site FAQBlock (FAQ_value None []) /\
  accepted site FAQBlock (FAQ_value (Some "FAQ") [what_is_it; what_is_it]).
Proof.
  pose proof (FAQ_accepts_empty_items site None) as (Hnone & _).
  pose proof (FAQ_accepts_empty_items site (Some "FAQ")) as (_ & Hmany & _).
  split; [exact Hnone |].
  apply Hmany. repeat constructor.
Defined.

End ValidationFacts.

(* ===================================================================== *)
(** * Facts about the stream renderer                                     *)
(* ===================================================================== *)

Module TagFacts.
Import Blocks Validation Tags Samples.

Lemma join_is_concatenation parts :
  join "" parts = fold_right String.append "" parts.
Proof.
  unfold join. induction parts as [| part rest IH]; [reflexivity |].
  cbn [String.concat fold_right]. destruct rest as [| next rest'].
  - cbn. induction part as [| c part' IHp]; cbn; congruence.
  - rewrite IH. reflexivity.
Qed.

Section Renderer.

Variables World Context Exn : Type.
Variable render :
  forall b : Block, ValueOf b -> Context -> M World Exn string.

Local Abbreviation for_block_in := (for_block_in World Context Exn render).
Local Abbreviation render_streamfield :=
  (render_streamfield World Context Exn render).
Local Abbreviation rendered_in_order :=
  (rendered_in_order World Context Exn render).
Local Abbreviation first_raise := (first_raise World Context Exn render).
Local Abbreviation some_render_raises :=
  (some_render_raises World Context Exn render).

(** The loop appends, in order, what each element renders to. *)
Lemma for_block_in_rendered context w stream htmls w' :
  rendered_in_order context w stream htmls w' ->
  forall rendered,
    for_block_in context stream rendered w
    = (Returned (rendered ++ htmls), w').
Proof.
  induction 1 as [w | w child html w1 rest htmls w2 Hchild _ IH];
    intros rendered; cbn [Tags.for_block_in].
  - unfold ret. now rewrite app_nil_r.
  - unfold bind. rewrite Hchild, IH, <- app_assoc. reflexivity.
Qed.

(** The loop raises exactly what its first failing render call raises,
    and stops there. *)
Lemma for_block_in_raises context stream :
  forall rendered w e w',
    for_block_in context stream rendered w = (Raised e, w')
    <-> first_raise context w stream e w'.
Proof.
  induction stream as [| child rest IH]; intros rendered w e w';
    cbn [Tags.for_block_in].
  - split; [discriminate |].
    intros (before & c & after & htmls & w1 & Heq & _).
    now destruct before.
  - unfold bind.
    destruct (render (block child) (value child) context w)
      as [[html | e0] w1] eqn:Hchild.
    + rewrite IH. split.
      * intros (before & c & after & htmls & w2 & -> & Hbefore & Hraise).
        exists (child :: before), c, after, (html :: htmls), w2.
        repeat split; [| exact Hraise].
        econstructor; eassumption.
      * intros (before & c & after & htmls & w2 & Heq & Hbefore & Hraise).
        destruct before as [| b before']; cbn in Heq;
          injection Heq as <- ->.
        -- inversion Hbefore; subst. congruence.
        -- inversion Hbefore as [| ? ? html' w1' ? htmls' ? Hb Hrest];
             subst.
           rewrite Hchild in Hb. injection Hb as <- <-.
           now exists before', c, after, htmls', w2.
    + split.
      * intros [= <- <-].
        exists [], child, rest, [], w. repeat split; [constructor | exact Hchild].
      * intros (before & c & after & htmls & w2 & Heq & Hbefore & Hraise).
        destruct before as [| b before']; cbn in Heq;
          injection Heq as <- ->.
        -- inversion Hbefore; subst. congruence.
        -- inversion Hbefore; subst. congruence.
Qed.

(** render_streamfield raises what the loop raises; the falsy guard
    never does. *)
Lemma render_streamfield_raises context stream_value w e w' :
  render_streamfield context stream_value w = (Raised e, w')
  <-> first_raise context w (iter stream_value) e w'.
Proof.
  unfold Tags.render_streamfield.
  destruct stream_value as [[| child rest] |]; cbn [truth negb iter].
  - split; [discriminate |]. intros Hf.
    apply (for_block_in_raises context [] [] w e w') in Hf. discriminate.
  - rewrite <- (for_block_in_raises context (child :: rest) [] w e w').
    unfold bind, ret.
    destruct (for_block_in context (child :: rest) [] w) as [[out | e0] w0];
      split; congruence.
  - split; [discriminate |]. intros Hf.
    apply (for_block_in_raises context [] [] w e w') in Hf. discriminate.
Qed.

(** When rendering neither reads nor changes the world, the renderer
    raises exactly when the stream holds an element whose block raises
    on it. *)
Lemma stateless_render_raises
    (outcome : forall b : Block, ValueOf b -> Context -> Outcome Exn string)
    (Hstateless : forall b v c w, render b v c w = (outcome b v c, w))
    context stream_value w :
  (exists e w', render_streamfield context stream_value w = (Raised e, w'))
  <-> exists child,
        In child (iter stream_value) /\
        exists e, outcome (block child) (value child) context = Raised e.
Proof.
  split.
  - intros (e & w' & Hraise). apply render_streamfield_raises in Hraise.
    destruct Hraise as (before & child & after & htmls & w1 & Heq & _ & Hr).
    exists child. split.
    + rewrite Heq. apply in_or_app. right. now left.
    + exists e. rewrite Hstateless in Hr. congruence.
  - intros (child & Hin & e & Hout).
    assert (Hloop : forall stream rendered,
      In child stream ->
      exists e' w', for_block_in context stream rendered w = (Raised e', w')).
    { induction stream as [| c rest IH]; intros rendered Hc; [contradiction |].
      cbn [Tags.for_block_in]. unfold bind. rewrite Hstateless.
      destruct (outcome (block c) (value c) context) as [html | e0] eqn:Hc0.
      - destruct Hc as [-> | Hc]; [congruence |]. now apply IH.
      - now exists e0, w. }
    destruct (Hloop (iter stream_value) [] Hin) as (e' & w' & Hraise).
    exists e', w'. apply render_streamfield_raises.
    now apply for_block_in_raises in Hraise.
Qed.

(** C1.  For a non-empty stream whose elements render, one after the
    other and each through its own block, to the texts [htmls],
    render_streamfield returns the concatenation of [htmls] in stream
    order.  In particular the stream heading "Welcome", paragraph
    "<p>Hi</p>" yields the heading's HTML immediately followed by the
    paragraph's. *)
Theorem render_streamfield_concatenates context :
  (forall stream htmls w w',
      stream <> [] ->
      rendered_in_order context w stream htmls w' ->
      render_streamfield context (Some stream) w
      = (Returned (fold_right String.append "" htmls), w')) /\
  (forall w heading_html w1 paragraph_html w2,
      render (block (heading_child "Welcome"))
             (value (heading_child "Welcome")) context w
      = (Returned heading_html, w1) ->
      render (block (paragraph_child "<p>Hi</p>"))
             (value (paragraph_child "<p>Hi</p>")) context w1
      = (Returned paragraph_html, w2) ->
      render_streamfield context (Some welcome_stream) w
      = (Returned (heading_html ++ paragraph_html)%string, w2)).
Proof.
  assert (Hgeneral : forall stream htmls w w',
    stream <> [] ->
    rendered_in_order context w stream htmls w' ->
    render_streamfield context (Some stream) w
    = (Returned (fold_right String.append "" htmls), w')).
  { intros stream htmls w w' Hne Hall.
    unfold Tags.render_streamfield.
    destruct stream as [| child rest]; [congruence |].
    cbn [truth negb iter]. unfold bind.
    rewrite (for_block_in_rendered _ _ _ _ _ Hall []).
    unfold ret. now rewrite app_nil_l, join_is_concatenation. }
  split; [exact Hgeneral |].
  intros w heading_html w1 paragraph_html w2 Hheading Hparagraph.
  assert (Hright : (paragraph_html ++ "")%string = paragraph_html)
    by exact (eq_sym (join_is_concatenation [paragraph_html])).
  transitivity
    (Returned (Exn := Exn)
       (fold_right String.append "" [heading_html; paragraph_html]), w2).
  - apply Hgeneral; [discriminate |].
    repeat (econstructor; try eassumption).
  - cbn [fold_right]. now rewrite Hright.
Qed.

(** C2.  For an absent stream value and for an empty one,
    render_streamfield returns the empty string, in every context, and
    renders nothing. *)
Theorem render_streamfield_empty context w :
  render_streamfield context None w = (Returned "", w) /\
  render_streamfield context (Some []) w = (Returned "", w).
Proof. split; reflexivity. Qed.

(** C9.  render_streamfield raises exactly when a render call it makes
    raises: the exception it raises is the one the first failing
    element raised, the world is the one that call left (nothing is
    caught, retried or rendered afterwards), and no text is returned
    in its place. *)
Theorem render_streamfield_propagates context stream_value w :
  (forall e w',
      render_streamfield context stream_value w = (Raised e, w')
      <-> first_raise context w (iter stream_value) e w') /\
  ((exists e w', render_streamfield context stream_value w = (Raised e, w'))
   <-> some_render_raises context w (iter stream_value)).
Proof.
  assert (Hraise : forall e w',
    render_streamfield context stream_value w = (Raised e, w')
    <-> first_raise context w (iter stream_value) e w')
    by (intros e w'; apply render_streamfield_raises).
  split; [exact Hraise |].
  unfold Tags.some_render_raises.
  split; intros (e & w' & H); exists e, w'; now apply Hraise.
Qed.

End Renderer.

Lemma render_streamfield_concatenates_witness :
  render_streamfield nat string string counting_render "page" (Some welcome_stream) 0
  = (Returned "<h2>Welcome</h2><p>Hi</p>", 2).
Proof.
  apply (proj1 (render_streamfield_concatenates nat string string
                  counting_render "page")
           welcome_stream ["<h2>Welcome</h2>"; "<p>Hi</p>"] 0 2).
  - discriminate.
  - repeat (econstructor; try reflexivity).
Defined.

Lemma render_streamfield_propagates_witness :
  render_streamfield nat string string counting_render "page" (Some broken_stream) 0
  = (Raised "AttributeError", 2).
Proof.
  apply (proj1 (render_streamfield_propagates nat string string
                  counting_render "page" (Some broken_stream) 0)).
  exists [heading_child "Welcome"], missing_image_child,
         [paragraph_child "<p>Hi</p>"], ["<h2>Welcome</h2>"], 1.
  repeat split.
  repeat (econstructor; try reflexivity).
Defined.

End TagFacts.

(* ===================================================================== *)
(** * Laws of the stream renderer                                         *)
(* ===================================================================== *)

Module RendererLaws.
Import Blocks Validation Tags StreamTools.

Lemma concatenation_app (first second : list string) :
  fold_right String.append "" (first ++ second)
  = (fold_right String.append "" first
     ++ fold_right String.append "" second)%string.
Proof.
  induction first as [| part rest IH]; cbn [fold_right app]; [reflexivity |].
  rewrite IH. induction part as [| c part' IHp]; cbn; congruence.
Qed.

Section Renderer.

Variables World Context Exn : Type.
Variable render :
  forall b : Block, ValueOf b -> Context -> M World Exn string.

Local Abbreviation for_block_in := (for_block_in World Context Exn render).
Local Abbreviation render_streamfield :=
  (render_streamfield World Context Exn render).
Local Abbreviation rendered_in_order :=
  (rendered_in_order World Context Exn render).

(** What the loop does to the list it was handed: it only appends. *)
Lemma for_block_in_accumulates context stream :
  forall rendered w,
    for_block_in context stream rendered w
    = match for_block_in context stream [] w with
      | (Returned htmls, w') => (Returned (rendered ++ htmls), w')
      | (Raised e, w') => (Raised e, w')
      end.
Proof.
  induction stream as [| child rest IH]; intros rendered w;
    cbn [Tags.for_block_in].
  - unfold ret. now rewrite app_nil_r.
  - unfold bind.
    destruct (render (block child) (value child) context w) as [[html | e] w1];
      [| reflexivity].
    rewrite (IH (rendered ++ [html])), (IH ([] ++ [html])).
    destruct (for_block_in context rest [] w1) as [[htmls | e] w2];
      [| reflexivity].
    now rewrite <- !app_assoc.
Qed.

(** The loop over two streams in a row is the loop over the first, then
    over the second. *)
Lemma for_block_in_app context first second :
  forall rendered w,
    for_block_in context (first ++ second) rendered w
    = match for_block_in context first rendered w with
      | (Returned htmls, w') => for_block_in context second htmls w'
      | (Raised e, w') => (Raised e, w')
      end.
Proof.
  induction first as [| child rest IH]; intros rendered w;
    cbn [Tags.for_block_in app].
  - reflexivity.
  - unfold bind.
    destruct (render (block child) (value child) context w) as [[html | e] w1];
      [apply IH | reflexivity].
Qed.

(** render_streamfield is the loop followed by the join, on every
    stream value; the falsy guard changes nothing. *)
Lemma render_streamfield_loop context stream_value w :
  render_streamfield context stream_value w
  = match for_block_in context (iter stream_value) [] w with
    | (Returned htmls, w') =>
        (Returned (fold_right String.append "" htmls), w')
    | (Raised e, w') => (Raised e, w')
    end.
Proof.
  unfold Tags.render_streamfield.
  destruct stream_value as [[| child rest] |]; cbn [truth negb iter];
    try reflexivity.
  unfold bind, ret.
  destruct (for_block_in context (child :: rest) [] w) as [[htmls | e] w'];
    [| reflexivity].
  now rewrite TagFacts.join_is_concatenation.
Qed.

(** A loop that returns has rendered every element. *)
Lemma for_block_in_returns context stream :
  forall rendered w out w',
    for_block_in context stream rendered w = (Returned out, w') ->
    exists htmls,
      out = rendered ++ htmls /\ rendered_in_order context w stream htmls w'.
Proof.
  induction stream as [| child rest IH]; intros rendered w out w';
    cbn [Tags.for_block_in].
  - intros [= <- <-]. exists []. split; [now rewrite app_nil_r | constructor].
  - unfold bind.
    destruct (render (block child) (value child) context w)
      as [[html | e] w1] eqn:Hchild; [| discriminate].
    intros Hrest. destruct (IH _ _ _ _ Hrest) as (htmls & -> & Hall).
    exists (html :: htmls). split.
    + now rewrite <- app_assoc.
    + econstructor; eassumption.
Qed.

(** X1.  render_streamfield returns a text exactly when every element of
    the stream renders, in order, without raising; the text is then the
    concatenation of what the elements rendered to, and the world is the
    one the last render call left (the starting one for an absent or
    empty stream). *)
Theorem render_streamfield_returns_iff context stream_value w out w' :
  render_streamfield context stream_value w = (Returned out, w')
  <-> exists htmls,
        rendered_in_order context w (iter stream_value) htmls w' /\
        out = fold_right String.append "" htmls.
Proof.
  rewrite render_streamfield_loop. split.
  - destruct (for_block_in context (iter stream_value) [] w)
      as [[htmls | e] w1] eqn:Hloop; [| discriminate].
    intros [= <- <-].
    destruct (for_block_in_returns _ _ _ _ _ _ Hloop) as (htmls' & -> & Hall).
    now exists htmls'.
  - intros (htmls & Hall & ->).
    now rewrite (TagFacts.for_block_in_rendered _ _ _ _ _ _ _ _ _ Hall []).
Qed.

(** X2.  Rendering distributes over stream concatenation: rendering
    [first ++ second] is rendering [first], then [second] in the world
    that left, and concatenating the two texts; if [first] raises,
    [second] is not rendered.  Either part may be empty. *)
Theorem render_streamfield_app context first second w :
  render_streamfield context (Some (first ++ second)) w
  = (html1 <- render_streamfield context (Some first) ;;
     html2 <- render_streamfield context (Some second) ;;
     ret (html1 ++ html2)%string) w.
Proof.
  unfold bind at 1. rewrite !render_streamfield_loop. cbn [iter].
  rewrite for_block_in_app.
  destruct (for_block_in context first [] w) as [[htmls1 | e] w1];
    [| reflexivity].
  unfold bind. rewrite render_streamfield_loop. cbn [iter].
  rewrite for_block_in_accumulates.
  destruct (for_block_in context second [] w1) as [[htmls2 | e] w2];
    [| reflexivity].
  unfold ret. now rewrite concatenation_app.
Qed.

(** X3.  A stream of one element renders to exactly what that element's
    block renders it to: same text, same exception, same world; nothing
    is wrapped around it. *)
Theorem render_streamfield_singleton context child w :
  render_streamfield context (Some [child]) w
  = render (block child) (value child) context w.
Proof.
  rewrite render_streamfield_loop. cbn [iter Tags.for_block_in].
  unfold bind, ret.
  destruct (render (block child) (value child) context w) as [[html | e] w1];
    [| reflexivity].
  cbn [app].
  now rewrite <- (TagFacts.join_is_concatenation [html]).
Qed.

(** X4.  Once a stream raises, whatever follows it is irrelevant: the
    longer stream raises the same exception in the same world. *)
Theorem render_streamfield_raise_decides context first second w e w' :
  render_streamfield context (Some first) w = (Raised e, w') ->
  render_streamfield context (Some (first ++ second)) w = (Raised e, w').
Proof.
  rewrite !render_streamfield_loop. cbn [iter]. rewrite for_block_in_app.
  destruct (for_block_in context first [] w) as [[htmls | e0] w0];
    [discriminate | trivial].
Qed.

(** X6.  With a renderer that neither raises nor touches the world,
    render_streamfield is a pure function of the stream: the
    concatenation of the elements' texts, the empty string for an absent
    or empty stream. *)
Theorem render_streamfield_pure
    (html : forall b : Block, ValueOf b -> Context -> string)
    (Hpure : forall b v c w, render b v c w = (Returned (html b v c), w))
    context stream_value w :
  render_streamfield context stream_value w
  = (Returned
       (fold_right String.append ""
          (map (fun child => html (block child) (value child) context)
               (iter stream_value))),
     w).
Proof.
  rewrite render_streamfield_loop.
  assert (Hloop : forall stream rendered,
    for_block_in context stream rendered w
    = (Returned
         (rendered ++
          map (fun child => html (block child) (value child) context) stream),
       w)).
  { induction stream as [| child rest IH]; intros rendered;
      cbn [map Tags.for_block_in].
    - unfold ret. now rewrite app_nil_r.
    - unfold bind. rewrite Hpure, IH, <- app_assoc. reflexivity. }
  now rewrite Hloop.
Qed.

End Renderer.

Lemma render_streamfield_raise_decides_witness :
  render_streamfield nat string string Samples.counting_render "page"
    (Some failing_prefix) 0 = (Raised "AttributeError", 2) /\
  render_streamfield nat string string Samples.counting_render "page"
    (Some (failing_prefix ++ [paragraph_child "<p>Hi</p>"])) 0
  = (Raised "AttributeError", 2).
Proof.
  assert (H : render_streamfield nat string string Samples.counting_render
                "page" (Some failing_prefix) 0 = (Raised "AttributeError", 2))
    by reflexivity.
  split; [exact H |].
  exact (render_streamfield_raise_decides nat string string
           Samples.counting_render "page" failing_prefix
           [paragraph_child "<p>Hi</p>"] 0 "AttributeError" 2 H).
Defined.

Lemma render_streamfield_pure_witness :
  (forall b v c w, bracket_render b v c w = (Returned (bracket_html b v c), w)) /\
  render_streamfield nat string string bracket_render "page"
    (Some welcome_stream) 0
  = (Returned "[Welcome][<p>Hi</p>]", 0).
Proof.
  assert (H : forall b v c w,
             bracket_render b v c w = (Returned (bracket_html b v c), w))
    by reflexivity.
  split; [exact H |].
  exact (render_streamfield_pure nat string string bracket_render
           bracket_html H "page" (Some welcome_stream) 0).
Defined.

End RendererLaws.

(* ===================================================================== *)
(** * Facts about the page models and the app                             *)
(* ===================================================================== *)

Module DeclarationFacts.
Import Blocks Pages StreamTools.

(** X7.  In every page class the editing panels are the inherited ones,
    unchanged and first, followed by one panel for each field the class
    declares, in declaration order: no declared field lacks a panel and
    no panel names a field that is not declared. *)
Theorem content_panels_match_fields m Page_content_panels :
  In m Models.page_models ->
  exists own,
    Models.content_panels m Page_content_panels = Page_content_panels ++ own /\
    map Models.panel_field own = map fst (Models.model_fields m).
Proof.
  intros Hin. cbn in Hin.
  repeat (destruct Hin as [<- | Hin];
          [ eexists; split; [reflexivity | reflexivity] | ]).
  contradiction.
Qed.

Lemma content_panels_match_fields_witness :
  In Models.BlogPage Models.page_models /\
  exists own,
    Models.content_panels Models.BlogPage MoreSamples.inherited_panels
    = MoreSamples.inherited_panels ++ own /\
    map Models.panel_field own = ["date"; "intro"; "body"].
Proof.
  assert (H : In Models.BlogPage Models.page_models) by (cbn; auto).
  split; [exact H |].
  exact (content_panels_match_fields Models.BlogPage
           MoreSamples.inherited_panels H).
Defined.

(** X8.  A type tag names one block: within each page's vocabulary the
    tags are pairwise distinct, and a tag that both pages declare
    (heading, paragraph) stands for the same block in both. *)
Theorem stream_tags_name_one_block :
  NoDup (map fst (block_types HomePage_body)) /\
  NoDup (map fst (block_types BlogPage_body)) /\
  (forall tag b b',
      In (tag, b) (block_types HomePage_body) ->
      In (tag, b') (block_types BlogPage_body) ->
      b = b').
Proof.
  repeat apply conj.
  - cbn. repeat (constructor; [cbn; intuition discriminate |]). constructor.
  - cbn. repeat (constructor; [cbn; intuition discriminate |]). constructor.
  - intros tag b b' Hhome Hblog. cbn in Hhome, Hblog.
    repeat (destruct Hhome as [Hhome | Hhome];
            [ injection Hhome as <- <- | ]);
      try contradiction;
      repeat (destruct Hblog as [Hblog | Hblog];
              [ first [ discriminate Hblog
                      | injection Hblog as <-; reflexivity ] | ]);
      contradiction.
Qed.

(** X9.  The template files the blocks name are pairwise distinct, and
    each lies in the directory named after the app ([name] in
    customblocks/apps.py). *)
Theorem templates_distinct_in_app_directory :
  NoDup declared_templates /\
  Forall (fun t =>
            String.prefix (Apps.name Apps.CustomBlocksConfig ++ "/")%string t
            = true)
         declared_templates.
Proof.
  split.
  - cbn. repeat (constructor; [cbn; intuition discriminate |]). constructor.
  - cbn. repeat constructor.
Qed.

End DeclarationFacts.

(* ===================================================================== *)
(** * Further facts about validation                                      *)
(* ===================================================================== *)

Module ValidationLaws.
Import Blocks Validation ValidationFacts.

(** X12.  Reordering the testimonials of a slider never changes whether
    it is accepted. *)
Theorem TestimonialSlider_order_irrelevant fw title
    (testimonials testimonials' : list (ValueOf TestimonialBlock)) :
  Permutation testimonials testimonials' ->
  (accepted fw TestimonialSliderBlock
     (TestimonialSlider_value title testimonials)
   <-> accepted fw TestimonialSliderBlock
         (TestimonialSlider_value title testimonials')).
Proof.
  intros Hperm. rewrite !TestimonialSlider_accepted.
  assert (Hsym : Permutation testimonials' testimonials)
    by now apply Permutation_sym.
  split; intros [Hall Hne]; split.
  - eapply Permutation_Forall; eassumption.
  - intros ->. apply Permutation_nil in Hsym. contradiction.
  - eapply Permutation_Forall; eassumption.
  - intros ->. apply Permutation_nil in Hperm. contradiction.
Qed.

Lemma TestimonialSlider_order_irrelevant_witness :
  Permutation [Samples.alice; MoreSamples.bob] [MoreSamples.bob; Samples.alice] /\
  (accepted Samples.site TestimonialSliderBlock
     (TestimonialSlider_value None [Samples.alice; MoreSamples.bob])
   <-> accepted Samples.site TestimonialSliderBlock
         (TestimonialSlider_value None [MoreSamples.bob; Samples.alice])).
Proof.
  assert (H : Permutation [Samples.alice; MoreSamples.bob]
                          [MoreSamples.bob; Samples.alice])
    by apply perm_swap.
  split; [exact H |].
  exact (TestimonialSlider_order_irrelevant Samples.site None _ _ H).
Defined.

End ValidationLaws.
